(** * grant-scraper: the grant catalogue of [src/index.ts]

    A shallow embedding of the [GrantScraper] class and of [main], and the
    properties of the catalogue evaluation ([scrapeGrants]) and of the two
    formatting helpers ([formatAmount], [formatDeadline]).

    Conventions of the embedding.
    - A JavaScript string is held as the UTF-8 text of the source file
      (Rocq's [string] of bytes).  The half-width yen sign U+00A5 is the two
      bytes C2 A5 and the full-width yen sign U+FFE5 the three bytes
      EF BF A5; in well-formed UTF-8 a match of an encoded character always
      falls on a character boundary, so searching bytes and searching
      UTF-16 code units find the same occurrences.
    - A [Date] is held by its time value: an integer number of milliseconds
      since 1970-01-01T00:00:00Z, at most 8.64e15 in magnitude, or NaN for
      an Invalid Date.  [new Date(n)] clips [n] to that range (TimeClip).
      A number is an integer or NaN; on time values and the one constant
      the source adds to them (sums below 2^53 in magnitude) the floating
      point arithmetic of the source is exact.
    - Reading the wall clock, writing to the console and launching the
      browser go through an explicit [World], threaded by a state monad. *)

From Stdlib Require Import ZArith List String Ascii Bool Lia.
From Stdlib Require Import Numbers.DecimalString.
Import ListNotations.

Open Scope string_scope.
Open Scope Z_scope.

(** ** The JavaScript runtime the program relies on *)

Module JS.

(** A number of the program: an integer, or NaN ([None]). *)
Definition Number : Type := option Z.

(** [a + b] on numbers. *)
Definition Number_add (a b : Number) : Number :=
  match a, b with
  | Some x, Some y => Some (x + y)
  | _, _ => None
  end.

(** [Date]: [getTime] is the time value in milliseconds since the epoch,
    NaN for an Invalid Date. *)
Record Date : Type := DateOf { getTime : Number }.

Definition msPerDay : Z := 24 * 60 * 60 * 1000.

(** The largest time value in magnitude: 100,000,000 days. *)
Definition maxTime : Z := 8640000000000000.

(** TimeClip: a number out of the range of time values becomes NaN. *)
Definition TimeClip (n : Number) : Number :=
  match n with
  | Some t => if Z.abs t <=? maxTime then Some t else None
  | None => None
  end.

(** [new Date(n)] for a number [n]. *)
Definition new_Date (n : Number) : Date := DateOf (TimeClip n).

(** [new Date(t)] for an integer [t]. *)
Definition mkDate (t : Z) : Date := new_Date (Some t).

(** Days between 1970-01-01 and the civil date [y]-[m]-[d] of the
    proleptic Gregorian calendar. *)
Definition days_from_civil (y m d : Z) : Z :=
  let y' := if m <=? 2 then y - 1 else y in
  let era := y' / 400 in
  let yoe := y' - era * 400 in
  let mp := (m + 9) mod 12 in
  let doy := (153 * mp + 2) / 5 + d - 1 in
  let doe := yoe * 365 + yoe / 4 - yoe / 100 + doy in
  era * 146097 + doe - 719468.

(** The civil date of a day number: the inverse of [days_from_civil]. *)
Definition civil_from_days (z : Z) : Z * Z * Z :=
  let z' := z + 719468 in
  let era := z' / 146097 in
  let doe := z' - era * 146097 in
  let yoe := (doe - doe / 1460 + doe / 36524 - doe / 146096) / 365 in
  let doy := doe - (365 * yoe + yoe / 4 - yoe / 100) in
  let mp := (5 * doy + 2) / 153 in
  let d := doy - (153 * mp + 2) / 5 + 1 in
  let m := if mp <? 10 then mp + 3 else mp - 9 in
  let y := yoe + era * 400 in
  (if m <=? 2 then y + 1 else y, m, d).

(** [new Date('YYYY-MM-DD')]: a date-only ISO string is midnight UTC. *)
Definition Date_of_iso (y m d : Z) : Date :=
  mkDate (days_from_civil y m d * msPerDay).

(** [a <= b] on two [Date] objects compares their time values; a
    comparison with NaN is false. *)
Definition Date_le (a b : Date) : bool :=
  match getTime a, getTime b with
  | Some x, Some y => x <=? y
  | _, _ => false
  end.

(** [String(n)] for a non-negative integer. *)
Definition Number_toString (n : Z) : string :=
  NilEmpty.string_of_uint (N.to_uint (Z.to_N n)).

(** [d.toLocaleDateString('ja-JP')] in a time zone [offset] milliseconds
    east of UTC: year/month/day, without padding. *)
Definition toLocaleDateString_jaJP (offset : Z) (d : Date) : string :=
  match getTime d with
  | Some t =>
      let '(y, m, dd) := civil_from_days ((t + offset) / msPerDay) in
      Number_toString y ++ "/" ++ Number_toString m ++ "/"
                      ++ Number_toString dd
  | None => "Invalid Date"
  end.

(** [s.startsWith(p)]. *)
Fixpoint startsWith (p s : string) : bool :=
  match p, s with
  | EmptyString, _ => true
  | String a p', String b s' => Ascii.eqb a b && startsWith p' s'
  | String _ _, EmptyString => false
  end.

(** [s.slice(n)] for [n] within the string. *)
Fixpoint drop (n : nat) (s : string) : string :=
  match n, s with
  | O, _ => s
  | S n', String _ s' => drop n' s'
  | S _, EmptyString => EmptyString
  end.

(** [s.includes(p)]. *)
Fixpoint includes (p s : string) : bool :=
  startsWith p s ||
  match s with
  | EmptyString => false
  | String _ s' => includes p s'
  end.

(** [s.replace(p, r)] with a string pattern [p] and a replacement [r]
    free of [$]: only the first occurrence of [p] is replaced. *)
Fixpoint replace (p r s : string) : string :=
  if startsWith p s then r ++ drop (String.length p) s
  else match s with
       | EmptyString => EmptyString
       | String c s' => String c (replace p r s')
       end.

(** [xs.join(sep)]. *)
Definition join (sep : string) (xs : list string) : string :=
  String.concat sep xs.

End JS.

Import JS.

(** ** The world outside the program *)

(** The browser handle returned by [puppeteer.launch]. *)
Inductive Browser : Type := Chromium (pid : nat).

(** [wall] is the sequence of wall-clock readings, [reads] the number of
    readings taken so far, [stdout] and [stderr] the lines written by
    [console.log] and [console.error] (oldest first), [launch] what
    [puppeteer.launch] resolves to ([None]: it rejects) and
    [closedBrowsers] the browsers closed so far. *)
Record World : Type := mkWorld {
  wall : nat -> Z;
  reads : nat;
  stdout : list string;
  stderr : list string;
  launch : option Browser;
  closedBrowsers : list Browser
}.

(** A computation reads and updates the world. *)
Definition M (A : Type) : Type := World -> A * World.

Definition ret {A : Type} (a : A) : M A := fun w => (a, w).

Definition bind {A B : Type} (m : M A) (k : A -> M B) : M B :=
  fun w => let (a, w') := m w in k a w'.

Notation "x <- m ;; k" := (bind m (fun x => k))
  (at level 61, m at next level, right associativity).
Notation "m ;;; k" := (bind m (fun _ => k))
  (at level 61, right associativity).

(** [new Date()]: the next reading of the wall clock. *)
Definition new_Date_now : M Date :=
  fun w =>
    (mkDate (wall w (reads w)),
     mkWorld (wall w) (S (reads w)) (stdout w) (stderr w) (launch w) (closedBrowsers w)).

Definition console_log (line : string) : M unit :=
  fun w =>
    (tt, mkWorld (wall w) (reads w) (stdout w ++ [line]) (stderr w)
                 (launch w) (closedBrowsers w)).

Definition console_error (line : string) : M unit :=
  fun w =>
    (tt, mkWorld (wall w) (reads w) (stdout w) (stderr w ++ [line])
                 (launch w) (closedBrowsers w)).

Definition browser_close (b : Browser) : M unit :=
  fun w =>
    (tt, mkWorld (wall w) (reads w) (stdout w) (stderr w) (launch w)
                 (closedBrowsers w ++ [b])).

(** [xs.forEach((x, index) => f(x, index))], [index] counted from [i]. *)
Fixpoint forEach_from {A : Type} (f : A -> Z -> M unit) (i : Z) (xs : list A)
  : M unit :=
  match xs with
  | [] => ret tt
  | x :: xs' => f x i ;;; forEach_from f (i + 1) xs'
  end.

Definition forEach {A : Type} (f : A -> Z -> M unit) (xs : list A) : M unit :=
  forEach_from f 0 xs.

(** ** Data model *)

Record GrantDeadline : Type := mkGrantDeadline {
  start : option Date;
  end_ : option Date;
  isRolling : bool;
  nextDeadline : option Date;
  cycle : option string
}.

Inductive Status : Type := active | upcoming | closed.

Inductive Currency : Type := USD | JPY | EUR.

(** The string a currency is at run time. *)
Definition Currency_code (c : Currency) : string :=
  match c with
  | USD => "USD"
  | JPY => "JPY"
  | EUR => "EUR"
  end.

Record GrantInfo : Type := mkGrantInfo {
  title : string;
  organization : string;
  amount : string;
  deadline : GrantDeadline;
  description : string;
  eligibility : string;
  upfrontPayment : bool;
  url : string;
  category : list string;
  lastUpdated : Date;
  minimumAmount : Z;
  maximumAmount : Z;
  status : Status;
  currency : Currency
}.

(** ** The class [GrantScraper] *)

Record GrantScraper : Type := mkGrantScraper {
  browser : option Browser;
  currentDate : Date
}.

(** [async initialize()]: [None] when [puppeteer.launch] rejects. *)
Definition initialize (this : GrantScraper) : M (option GrantScraper) :=
  fun w =>
    match launch w with
    | Some b => (Some (mkGrantScraper (Some b) (currentDate this)), w)
    | None => (None, w)
    end.

(** [async close()]. *)
Definition close (this : GrantScraper) : M unit :=
  match browser this with
  | Some b => browser_close b
  | None => ret tt
  end.

(** [grants.push(g)]. *)
Definition push {A : Type} (xs : list A) (x : A) : list A := xs ++ [x].

(** [async scrapeGrants()]. *)
Definition scrapeGrants (this : GrantScraper) : M (list GrantInfo) :=
  match browser this with
  | None => ret []
  | Some _ =>
      let grants : list GrantInfo := [] in
      (* The Pollination Project *)
      now <- new_Date_now ;;
      let grants := push grants {|
        title := "Pollination Project Daily Grant";
        organization := "The Pollination Project";
        amount := "$1,000";
        minimumAmount := 1000;
        maximumAmount := 1000;
        currency := USD;
        deadline := {|
          start := None;
          end_ := None;
          isRolling := true;
          cycle := Some "daily";
          nextDeadline :=
            Some (new_Date (Number_add (getTime (currentDate this))
                                       (Some (24 * 60 * 60 * 1000))))
        |};
        description := "社会変革を目指す個人に対する日次の助成金。環境、教育、社会正義などの分野で活動する個人を支援。";
        eligibility := "世界中の個人が対象（団体も可）";
        upfrontPayment := true;
        url := "https://thepollinationproject.org";
        category := ["Social Change"; "Community"; "Environment"; "Education"];
        lastUpdated := now;
        status := active
      |} in
      (* Japan Foundation Grant *)
      let jfStart := Date_of_iso 2024 12 1 in
      let jfEnd := Date_of_iso 2025 1 15 in
      grants <-
        (if Date_le (currentDate this) jfEnd then
           now <- new_Date_now ;;
           ret (push grants {|
             title := "Japan Foundation アートプラットフォーム助成";
             organization := "Japan Foundation";
             amount := "¥1,000,000 - ¥5,000,000";
             minimumAmount := 1000000;
             maximumAmount := 5000000;
             currency := JPY;
             deadline := {|
               start := Some jfStart;
               end_ := Some jfEnd;
               isRolling := false;
               nextDeadline := Some jfEnd;
               cycle := None
             |};
             description := "日本と海外のアーティスト・文化団体による共同プロジェクトの支援。";
             eligibility := "アーティスト、文化団体（国際協力が必須）";
             upfrontPayment := true;
             url := "https://www.jpf.go.jp";
             category := ["Arts"; "Culture"; "International"];
             lastUpdated := now;
             status := upcoming
           |})
         else ret grants) ;;
      (* SARAI Project Grant *)
      let saraiStart := Date_of_iso 2024 1 15 in
      let saraiEnd := Date_of_iso 2024 2 28 in
      now <- new_Date_now ;;
      let grants := push grants {|
        title := "SARAI プロジェクト助成金";
        organization := "Sustainable Agriculture Research Program";
        amount := "¥500,000 - ¥2,000,000";
        minimumAmount := 500000;
        maximumAmount := 2000000;
        currency := JPY;
        deadline := {|
          start := Some saraiStart;
          end_ := Some saraiEnd;
          isRolling := false;
          nextDeadline := Some saraiEnd;
          cycle := None
        |};
        description := "持続可能な農業プロジェクト、特にアクアポニクスや都市農業の革新的なアプローチを支援";
        eligibility := "個人、団体（営利・非営利問わず）";
        upfrontPayment := true;
        url := "https://sarai.example.com";
        category := ["Agriculture"; "Sustainability"; "Innovation"; "Education"];
        lastUpdated := now;
        status := upcoming
      |} in
      ret grants
  end.

(** [async getAllGrants()]. *)
Definition getAllGrants (this : GrantScraper) : M (list GrantInfo) :=
  grants <- scrapeGrants this ;;
  console_log ("取得した助成金数: "
               ++ Number_toString (Z.of_nat (List.length grants))) ;;;
  ret grants.

(** [private formatAmount(amount, currency)]. *)
Definition formatAmount (this : GrantScraper) (amount currency : string)
  : string :=
  if String.eqb currency "JPY" then replace "¥" "￥" amount
  else amount.

Section Locale.

(** What the host's internationalisation library computes: the time zone
    and the date patterns are the host's. *)
Variable toLocaleDateString_ja : Date -> string.
Variable toLocaleString_ja : Date -> string.
Variable toLocaleString_enUS_Tokyo : Date -> string.
Variable Date_parse : string -> Date.

(** [constructor()]. *)
Definition new_GrantScraper : M GrantScraper :=
  now <- new_Date_now ;;
  ret (mkGrantScraper None (Date_parse (toLocaleString_enUS_Tokyo now))).

(** [private formatDeadline(deadline)]. *)
Definition formatDeadline (this : GrantScraper) (deadline : GrantDeadline)
  : string :=
  if isRolling deadline then "常時募集中"
  else
    match nextDeadline deadline with
    | Some next => "次回締切: " ++ toLocaleDateString_ja next
    | None =>
        match start deadline, end_ deadline with
        | Some s, Some e =>
            "募集期間: " ++ toLocaleDateString_ja s ++ " - "
                         ++ toLocaleDateString_ja e
        | _, _ => "募集期間は公式サイトでご確認ください"
        end
    end.

Definition newline : string := String (ascii_of_nat 10) EmptyString.

(** The callback of [grants.forEach] in [main]. *)
Definition printGrant (scraper : GrantScraper) (grant : GrantInfo)
           (index : Z) : M unit :=
  console_log (newline ++ "=== 助成金 " ++ Number_toString (index + 1)
                       ++ " ===") ;;;
  console_log ("タイトル: " ++ title grant) ;;;
  console_log ("団体: " ++ organization grant) ;;;
  console_log ("助成額: " ++ amount grant ++ " ("
               ++ Currency_code (currency grant) ++ ")") ;;;
  console_log ("募集状況: "
               ++ match status grant with
                  | active => "募集中"
                  | _ => "募集予定"
                  end) ;;;
  console_log ("締切: " ++ formatDeadline scraper (deadline grant)) ;;;
  console_log ("カテゴリー: " ++ join ", " (category grant)) ;;;
  console_log ("応募資格: " ++ eligibility grant) ;;;
  console_log ("前払い: " ++ if upfrontPayment grant then "あり" else "なし") ;;;
  console_log ("説明: " ++ description grant) ;;;
  console_log ("詳細: " ++ url grant).

(** [async function main()]: the [try] block runs until [initialize]
    rejects, the [catch] block logs, the [finally] block closes. *)
Definition main : M unit :=
  scraper <- new_GrantScraper ;;
  r <- initialize scraper ;;
  match r with
  | Some scraper =>
      now <- new_Date_now ;;
      console_log (newline ++ "現在の日時: " ++ toLocaleString_ja now) ;;;
      grants <- getAllGrants scraper ;;
      forEach (printGrant scraper) grants ;;;
      close scraper
  | None =>
      console_error "Error:" ;;;
      close scraper
  end.

End Locale.

(** ** Observations on a run *)

(** The value a computation returns in a world. *)
Definition result {A : Type} (m : M A) (w : World) : A := fst (m w).

(** The lines a computation writes with [console.log] in a world. *)
Definition printed {A : Type} (m : M A) (w : World) : list string :=
  skipn (List.length (stdout w)) (stdout (snd (m w))).

(** The world after [lines] were written with [console.log]. *)
Definition log_lines (lines : list string) (w : World) : World :=
  mkWorld (wall w) (reads w) (stdout w ++ lines) (stderr w) (launch w)
          (closedBrowsers w).

(** [w'] is [w] after [n] more lines on the standard output and some
    readings of the clock, and nothing else. *)
Definition logs_only (n : nat) (w w' : World) : Prop :=
  exists lines : list string,
    w' = mkWorld (wall w) (reads w') (stdout w ++ lines) (stderr w)
                 (launch w) (closedBrowsers w)
    /\ List.length lines = n.

(** A scraper after a successful [initialize], with reference time [t]. *)
Definition initialized (t : Date) : GrantScraper :=
  mkGrantScraper (Some (Chromium 0)) t.

(** A world whose clock advances one millisecond per reading from [t0]. *)
Definition world_at (t0 : Z) : World :=
  mkWorld (fun n => t0 + Z.of_nat n) 0 [] [] (Some (Chromium 0)) [].

Definition titles (grants : list GrantInfo) : list string :=
  map title grants.

(** The static definitions in the order the source writes them. *)
Definition authoring_order : list string :=
  [ "Pollination Project Daily Grant";
    "Japan Foundation アートプラットフォーム助成";
    "SARAI プロジェクト助成金" ].


(** A record respects the deadline rule at reference time [ref] when it is
    rolling or [ref] is not after its [end]. *)
Definition within_deadline (ref : Date) (g : GrantInfo) : bool :=
  isRolling (deadline g)
  || match end_ (deadline g) with
     | Some e => Date_le ref e
     | None => false
     end.

(** A record with its [lastUpdated] stamp replaced by [stamp]. *)
Definition restamp (stamp : Date) (g : GrantInfo) : GrantInfo :=
  {| title := title g;
     organization := organization g;
     amount := amount g;
     deadline := deadline g;
     description := description g;
     eligibility := eligibility g;
     upfrontPayment := upfrontPayment g;
     url := url g;
     category := category g;
     lastUpdated := stamp;
     minimumAmount := minimumAmount g;
     maximumAmount := maximumAmount g;
     status := status g;
     currency := currency g |}.

(** The eleven lines [main] prints for [grant] at position [index] of the
    list. *)
Definition grant_block (toLocaleDateString_ja : Date -> string)
           (scraper : GrantScraper) (grant : GrantInfo) (index : Z)
  : list string :=
  [ newline ++ "=== 助成金 " ++ Number_toString (index + 1) ++ " ===";
    "タイトル: " ++ title grant;
    "団体: " ++ organization grant;
    "助成額: " ++ amount grant ++ " (" ++ Currency_code (currency grant) ++ ")";
    "募集状況: " ++ match status grant with
                    | active => "募集中"
                    | _ => "募集予定"
                    end;
    "締切: " ++ formatDeadline toLocaleDateString_ja scraper (deadline grant);
    "カテゴリー: " ++ join ", " (category grant);
    "応募資格: " ++ eligibility grant;
    "前払い: " ++ (if upfrontPayment grant then "あり" else "なし");
    "説明: " ++ description grant;
    "詳細: " ++ url grant ].

(** The blocks of the records [grants], the first at position [i]. *)
Fixpoint blocks_from (toLocaleDateString_ja : Date -> string)
         (scraper : GrantScraper) (i : Z) (grants : list GrantInfo)
  : list string :=
  match grants with
  | [] => []
  | g :: grants' =>
      (grant_block toLocaleDateString_ja scraper g i
       ++ blocks_from toLocaleDateString_ja scraper (i + 1) grants')%list
  end.

(** A record to run the printing on. *)
Definition sample_grant : GrantInfo :=
  {| title := "Sample";
     organization := "Sample Org";
     amount := "$10";
     deadline := {| start := None; end_ := None; isRolling := false;
                    nextDeadline := None; cycle := None |};
     description := "d";
     eligibility := "e";
     upfrontPayment := false;
     url := "https://example.org";
     category := [ "A"; "B" ];
     lastUpdated := mkDate 0;
     minimumAmount := 10;
     maximumAmount := 10;
     status := closed;
     currency := EUR |}.

(** ** Proof tools *)

(** Runs [scrapeGrants] symbolically: the monad is unfolded and the reads
    of the world are reduced. *)
Ltac run_scrapeGrants :=
  unfold result, getAllGrants, scrapeGrants, bind, ret, new_Date_now,
         console_log, push;
  cbn [fst snd app wall reads stdout List.length].

(** Splits on the one conditional of [scrapeGrants]. *)
Ltac split_on_jfEnd this :=
  destruct (Date_le (currentDate this) (Date_of_iso 2025 1 15)) eqn:?;
  cbn [fst snd app wall reads stdout List.length].

(** ** The runtime on the dates and strings of the program *)

Example days_from_civil_epoch : days_from_civil 1970 1 1 = 0.
Proof. reflexivity. Qed.

Example Date_of_iso_jfEnd :
  getTime (Date_of_iso 2025 1 15) = Some 1736899200000.
Proof. reflexivity. Qed.

Example toLocale_jfEnd :
  toLocaleDateString_jaJP 0 (Date_of_iso 2025 1 15) = "2025/1/15".
Proof. reflexivity. Qed.

Example replace_first_only :
  replace "a" "b" "xaya" = "xbya".
Proof. reflexivity. Qed.

Example titles_mid_december :
  titles (result (scrapeGrants (initialized (Date_of_iso 2024 12 15)))
                 (world_at 1734220800000))
  = authoring_order.
Proof. reflexivity. Qed.

Example titles_february_2025 :
  titles (result (scrapeGrants (initialized (Date_of_iso 2025 2 1)))
                 (world_at 1738368000000))
  = [ "Pollination Project Daily Grant"; "SARAI プロジェクト助成金" ].
Proof. reflexivity. Qed.

(** ** Helper lemmas *)

Lemma skipn_length_app {A : Type} (xs ys : list A) :
  skipn (List.length xs) (xs ++ ys) = ys.
Proof.
  induction xs as [| x xs IH]; [reflexivity | exact IH].
Qed.

Lemma startsWith_refl (p s : string) : startsWith p (p ++ s) = true.
Proof.
  induction p as [| a p IH]; [reflexivity |].
  simpl. rewrite Ascii.eqb_refl. exact IH.
Qed.

Lemma drop_length_app (p s : string) : drop (String.length p) (p ++ s) = s.
Proof.
  induction p as [| a p IH]; [reflexivity | exact IH].
Qed.

(** The result of [scrapeGrants] on a scraper that was never initialized. *)
Lemma scrapeGrants_uninitialized (this : GrantScraper) (w : World) :
  browser this = None -> scrapeGrants this w = ([], w).
Proof.
  intros Hnull. unfold scrapeGrants. rewrite Hnull. reflexivity.
Qed.

(** The Japan Foundation record is listed exactly while the reference time
    is not after its [end]. *)
Lemma JapanFoundation_listed_iff (this : GrantScraper) (b : Browser)
      (w : World) :
  browser this = Some b ->
  (In "Japan Foundation アートプラットフォーム助成"
      (titles (result (scrapeGrants this) w))
   <-> Date_le (currentDate this) (Date_of_iso 2025 1 15) = true).
Proof.
  intros Hb. run_scrapeGrants. rewrite Hb. run_scrapeGrants.
  split_on_jfEnd this.
  - split; [reflexivity | intros _; simpl; auto].
  - split.
    + simpl. intros [H | [H | []]]; discriminate H.
    + discriminate.
Qed.

(** The SARAI record is listed whatever the reference time. *)
Lemma SARAI_listed_always (this : GrantScraper) (b : Browser) (w : World) :
  browser this = Some b ->
  In "SARAI プロジェクト助成金" (titles (result (scrapeGrants this) w)).
Proof.
  intros Hb. run_scrapeGrants. rewrite Hb. run_scrapeGrants.
  split_on_jfEnd this; simpl; auto.
Qed.

(** ** The catalogue evaluation, [scrapeGrants] *)

(** C1, at the reference time 2025-01-16 (after the [end] of both
    non-rolling records): the Japan Foundation record is left out, but the
    SARAI record, whose [end] is 2024-02-28, is still part of the output of
    [scrapeGrants]; it is a non-rolling record listed after its [end]. *)
Theorem scrapeGrants_lists_SARAI_after_its_end :
  let this := initialized (Date_of_iso 2025 1 16) in
  let out := result (scrapeGrants this) (world_at 1736985600000) in
  titles out
    = [ "Pollination Project Daily Grant"; "SARAI プロジェクト助成金" ]
  /\ map (fun g => end_ (deadline g)) out
     = [ None; Some (Date_of_iso 2024 2 28) ]
  /\ map (within_deadline (currentDate this)) out = [ true; false ].
Proof.
  cbv zeta. repeat split.
Qed.

(** C2, refuted as stated: at the valid reference time 8,639,999,999,999,000
    (inside the last 24 hours of the range of time values) the rolling
    record is listed, but its [nextDeadline] is an Invalid Date, not the
    reference time plus 24 hours. *)
Lemma scrapeGrants_rolling_next_day_past_range :
  let this := initialized (mkDate 8639999999999000) in
  let out := result (scrapeGrants this) (world_at 0) in
  getTime (currentDate this) = Some 8639999999999000
  /\ map (fun g => nextDeadline (deadline g))
         (filter (fun g => isRolling (deadline g)) out)
     = [ Some (DateOf None) ]
  /\ existsb (fun g =>
                isRolling (deadline g)
                && match nextDeadline (deadline g) with
                   | Some n =>
                       match getTime n with
                       | Some tn => tn =? 8639999999999000 + 86400000
                       | None => false
                       end
                   | None => false
                   end)
             out
     = false.
Proof.
  cbv zeta. repeat split.
Qed.

(** C2, amended: on an initialized scraper, whatever the reference time,
    the output of [scrapeGrants] starts with the Pollination Project record,
    which is rolling, and no other record of the output is rolling; the time
    value of its [nextDeadline] is the reference time plus 86,400,000
    milliseconds (24 hours) when that sum is a time value (at most 8.64e15
    in magnitude), and NaN (an Invalid Date) when it is not or when the
    reference time is itself invalid. *)
Theorem scrapeGrants_rolling_next_day (this : GrantScraper) (b : Browser)
        (w : World) :
  browser this = Some b ->
  exists (g : GrantInfo) (rest : list GrantInfo) (next : Date),
    result (scrapeGrants this) w = g :: rest
    /\ title g = "Pollination Project Daily Grant"
    /\ isRolling (deadline g) = true
    /\ nextDeadline (deadline g) = Some next
    /\ getTime next
       = match getTime (currentDate this) with
         | Some t =>
             if Z.abs (t + 86400000) <=? 8640000000000000
             then Some (t + 86400000)
             else None
         | None => None
         end
    /\ Forall (fun g' => isRolling (deadline g') = false) rest.
Proof.
  intros Hb. run_scrapeGrants. rewrite Hb. run_scrapeGrants.
  assert (Hnext :
            getTime (new_Date (Number_add (getTime (currentDate this))
                                          (Some (24 * 60 * 60 * 1000))))
            = match getTime (currentDate this) with
              | Some t =>
                  if Z.abs (t + 86400000) <=? 8640000000000000
                  then Some (t + 86400000)
                  else None
              | None => None
              end)
    by (destruct (getTime (currentDate this)); reflexivity).
  split_on_jfEnd this;
    eexists; eexists; eexists; (split; [reflexivity |]);
    (split; [reflexivity |]); (split; [reflexivity |]);
    (split; [reflexivity |]); (split; [exact Hnext |]);
    repeat constructor.
Qed.

(** Reference 2024-06-01T00:00:00Z gives 2024-06-02T00:00:00Z. *)
Lemma scrapeGrants_rolling_next_day_witness :
  browser (initialized (Date_of_iso 2024 6 1)) = Some (Chromium 0)
  /\ exists (g : GrantInfo) (rest : list GrantInfo) (next : Date),
       result (scrapeGrants (initialized (Date_of_iso 2024 6 1)))
              (world_at 1717200000000) = g :: rest
       /\ title g = "Pollination Project Daily Grant"
       /\ isRolling (deadline g) = true
       /\ nextDeadline (deadline g) = Some next
       /\ getTime next
          = match getTime (currentDate (initialized (Date_of_iso 2024 6 1)))
            with
            | Some t =>
                if Z.abs (t + 86400000) <=? 8640000000000000
                then Some (t + 86400000)
                else None
            | None => None
            end
       /\ Forall (fun g' => isRolling (deadline g') = false) rest.
Proof.
  split; [reflexivity |].
  apply (scrapeGrants_rolling_next_day
           (initialized (Date_of_iso 2024 6 1)) (Chromium 0)
           (world_at 1717200000000)).
  reflexivity.
Defined.

(** Inside the range the next deadline is a valid date, exactly 24 hours
    after the reference time. *)
Lemma next_day_in_range (t : Z) :
  - 8640000000000000 <= t <= 8640000000000000 - 86400000 ->
  getTime (new_Date (Number_add (getTime (mkDate t))
                                (Some (24 * 60 * 60 * 1000))))
  = Some (t + 86400000).
Proof.
  intros Hrange. unfold mkDate, new_Date, TimeClip, Number_add, maxTime.
  cbn [getTime].
  destruct (Z.leb_spec (Z.abs t) 8640000000000000) as [_ | Ht]; [| lia].
  cbn [getTime].
  change (24 * 60 * 60 * 1000) with 86400000.
  destruct (Z.leb_spec (Z.abs (t + 86400000)) 8640000000000000) as [_ | Ht];
    [reflexivity | lia].
Qed.

Example next_day_of_2024_06_01 :
  map (fun g => nextDeadline (deadline g))
      (firstn 1 (result (scrapeGrants (initialized (Date_of_iso 2024 6 1)))
                        (world_at 1717200000000)))
  = [ Some (Date_of_iso 2024 6 2) ].
Proof. reflexivity. Qed.

(** C5: two calls of [scrapeGrants] on the same scraper (the same reference
    time), in any two worlds (so with any two wall clocks, in particular the
    second call right after the first), return the same records up to the
    [lastUpdated] stamp, with the same [nextDeadline] values and the same
    formatted deadlines and amounts. *)
Theorem scrapeGrants_deterministic_up_to_lastUpdated
        (toLocaleDateString_ja : Date -> string)
        (this : GrantScraper) (w1 w2 : World) (stamp : Date) :
  let out1 := result (scrapeGrants this) w1 in
  let out2 := result (scrapeGrants this) w2 in
  map (restamp stamp) out1 = map (restamp stamp) out2
  /\ map (fun g => nextDeadline (deadline g)) out1
     = map (fun g => nextDeadline (deadline g)) out2
  /\ map (fun g => formatDeadline toLocaleDateString_ja this (deadline g)) out1
     = map (fun g => formatDeadline toLocaleDateString_ja this (deadline g))
           out2
  /\ map (fun g => formatAmount this (amount g) (Currency_code (currency g)))
         out1
     = map (fun g => formatAmount this (amount g) (Currency_code (currency g)))
           out2.
Proof.
  cbv zeta. run_scrapeGrants.
  destruct (browser this); [| repeat split].
  run_scrapeGrants. split_on_jfEnd this; repeat split.
Qed.

(** C6: the titles of the output of [scrapeGrants] are the titles of the
    static definitions in the order the source writes them, restricted to
    the records of the output: the visible records keep that order. *)
Theorem scrapeGrants_keeps_authoring_order (this : GrantScraper) (w : World) :
  let out := titles (result (scrapeGrants this) w) in
  out = filter (fun t => existsb (String.eqb t) out) authoring_order.
Proof.
  cbv zeta. run_scrapeGrants.
  destruct (browser this); [| reflexivity].
  run_scrapeGrants. split_on_jfEnd this; reflexivity.
Qed.

(** On an initialized scraper at least two records are listed, in one of
    two sequences. *)
Lemma scrapeGrants_titles (this : GrantScraper) (b : Browser) (w : World) :
  browser this = Some b ->
  titles (result (scrapeGrants this) w)
  = if Date_le (currentDate this) (Date_of_iso 2025 1 15)
    then authoring_order
    else [ "Pollination Project Daily Grant"; "SARAI プロジェクト助成金" ].
Proof.
  intros Hb. run_scrapeGrants. rewrite Hb. run_scrapeGrants.
  split_on_jfEnd this; reflexivity.
Qed.

(** C7: a record of the output of [scrapeGrants] that is rolling carries
    neither [start] nor [end], and on an initialized scraper the output
    holds a rolling record whatever the reference time. *)
Theorem scrapeGrants_rolling_has_no_window (this : GrantScraper) (b : Browser)
        (w : World) :
  browser this = Some b ->
  Forall (fun g => isRolling (deadline g) = true ->
                   start (deadline g) = None /\ end_ (deadline g) = None)
         (result (scrapeGrants this) w)
  /\ existsb (fun g => isRolling (deadline g)) (result (scrapeGrants this) w)
     = true.
Proof.
  intros Hb. run_scrapeGrants. rewrite Hb. run_scrapeGrants.
  split_on_jfEnd this; split; try reflexivity;
    repeat (constructor; [cbn; intros Hroll; try discriminate Hroll; auto |]);
    constructor.
Qed.

Lemma scrapeGrants_rolling_has_no_window_witness :
  browser (initialized (Date_of_iso 2025 3 1)) = Some (Chromium 0)
  /\ Forall (fun g => isRolling (deadline g) = true ->
                      start (deadline g) = None /\ end_ (deadline g) = None)
            (result (scrapeGrants (initialized (Date_of_iso 2025 3 1)))
                    (world_at 0))
  /\ existsb (fun g => isRolling (deadline g))
             (result (scrapeGrants (initialized (Date_of_iso 2025 3 1)))
                     (world_at 0))
     = true.
Proof.
  split; [reflexivity |].
  apply (scrapeGrants_rolling_has_no_window
           (initialized (Date_of_iso 2025 3 1)) (Chromium 0) (world_at 0)).
  reflexivity.
Defined.

(** C9: on a scraper whose browser handle is null, [scrapeGrants] returns
    the empty list and leaves the world as it is, and [getAllGrants]
    returns the empty list and logs a count of zero. *)
Theorem scrapeGrants_uninitialized_is_empty (this : GrantScraper) (w : World) :
  browser this = None ->
  scrapeGrants this w = ([], w)
  /\ result (getAllGrants this) w = []
  /\ printed (getAllGrants this) w = [ "取得した助成金数: 0" ].
Proof.
  intros Hnull. split; [now apply scrapeGrants_uninitialized |].
  unfold result, printed, getAllGrants, bind.
  rewrite (scrapeGrants_uninitialized this w Hnull).
  cbn [console_log ret fst snd stdout List.length].
  split; [reflexivity | apply skipn_length_app].
Qed.

Lemma scrapeGrants_uninitialized_is_empty_witness :
  browser (mkGrantScraper None (Date_of_iso 2024 12 15)) = None
  /\ scrapeGrants (mkGrantScraper None (Date_of_iso 2024 12 15)) (world_at 0)
     = ([], world_at 0)
  /\ result (getAllGrants (mkGrantScraper None (Date_of_iso 2024 12 15)))
            (world_at 0) = []
  /\ printed (getAllGrants (mkGrantScraper None (Date_of_iso 2024 12 15)))
             (world_at 0) = [ "取得した助成金数: 0" ].
Proof.
  split; [reflexivity |].
  apply (scrapeGrants_uninitialized_is_empty
           (mkGrantScraper None (Date_of_iso 2024 12 15)) (world_at 0)).
  reflexivity.
Defined.

(** The constructor leaves the browser handle null, so a scraper that is
    not initialized is what [new GrantScraper()] builds. *)
Lemma new_GrantScraper_uninitialized
      (toLocaleString_enUS_Tokyo : Date -> string)
      (Date_parse : string -> Date) (w : World) :
  browser (result (new_GrantScraper toLocaleString_enUS_Tokyo Date_parse) w)
  = None.
Proof. reflexivity. Qed.

(** C10: every record of the output of [scrapeGrants] is rolling, and
    then rendered by [formatDeadline] as the rolling label, or is not
    rolling and has its [nextDeadline] set to its [end], and then rendered
    as the next-deadline label of that date. *)
Theorem scrapeGrants_deadlines_render_rolling_or_next
        (toLocaleDateString_ja : Date -> string)
        (this : GrantScraper) (w : World) :
  Forall (fun g =>
            (isRolling (deadline g) = true
             /\ formatDeadline toLocaleDateString_ja this (deadline g)
                = "常時募集中")
            \/ (isRolling (deadline g) = false
                /\ exists d : Date,
                     nextDeadline (deadline g) = Some d
                     /\ end_ (deadline g) = Some d
                     /\ formatDeadline toLocaleDateString_ja this (deadline g)
                        = "次回締切: " ++ toLocaleDateString_ja d))
         (result (scrapeGrants this) w).
Proof.
  run_scrapeGrants.
  destruct (browser this); [| constructor].
  run_scrapeGrants.
  split_on_jfEnd this;
    repeat (constructor;
            [first [ left; split; reflexivity
                   | right; split; [reflexivity |];
                     eexists; repeat split; reflexivity ] |]);
    constructor.
Qed.

Example deadlines_printed_mid_december :
  map (fun g => formatDeadline (toLocaleDateString_jaJP 32400000)
                               (initialized (Date_of_iso 2024 12 15))
                               (deadline g))
      (result (scrapeGrants (initialized (Date_of_iso 2024 12 15)))
              (world_at 1734220800000))
  = [ "常時募集中"; "次回締切: 2025/1/15"; "次回締切: 2024/2/28" ].
Proof. reflexivity. Qed.

(** ** The formatting helpers *)

Lemma replace_at_head (p r s : string) : replace p r (p ++ s) = r ++ s.
Proof.
  destruct p as [| a p].
  - destruct s; reflexivity.
  - cbn [append replace].
    change (String a (p ++ s)) with (String a p ++ s).
    rewrite startsWith_refl, drop_length_app. reflexivity.
Qed.

Lemma replace_without_match (p r s : string) :
  includes p s = false -> replace p r s = s.
Proof.
  induction s as [| c s IH]; cbn [includes replace]; intros Hno;
    apply orb_false_iff in Hno; destruct Hno as [Hhead Htail];
    rewrite Hhead; [reflexivity |].
  now rewrite IH.
Qed.

(** With a currency other than JPY the amount is returned as it is. *)
Lemma formatAmount_other_currency (this : GrantScraper)
      (amount currency : string) :
  currency <> "JPY" -> formatAmount this amount currency = amount.
Proof.
  intros Hother. unfold formatAmount.
  destruct (String.eqb_spec currency "JPY"); [contradiction | reflexivity].
Qed.

(** With JPY an amount without a half-width yen sign is returned as it
    is, and an amount that starts with one has that one replaced. *)
Lemma formatAmount_JPY (this : GrantScraper) (amount : string) :
  (includes "¥" amount = false -> formatAmount this amount "JPY" = amount)
  /\ formatAmount this ("¥" ++ amount) "JPY" = "￥" ++ amount.
Proof.
  split.
  - intros Hno. unfold formatAmount. cbn [String.eqb Ascii.eqb Bool.eqb].
    now apply replace_without_match.
  - reflexivity.
Qed.

Example formatAmount_yen_500000 :
  formatAmount (initialized (mkDate 0)) "¥500,000" "JPY" = "￥500,000".
Proof. reflexivity. Qed.

Example formatAmount_usd_1000 :
  formatAmount (initialized (mkDate 0)) "$1,000" "USD" = "$1,000".
Proof. reflexivity. Qed.

(** C3, at the amount of the Japan Foundation record: with JPY only the
    first half-width yen sign becomes a full-width one, and the result
    still includes a half-width yen sign. *)
Theorem formatAmount_JPY_leaves_second_yen (this : GrantScraper) :
  formatAmount this "¥1,000,000 - ¥5,000,000" "JPY"
  = "￥1,000,000 - ¥5,000,000"
  /\ includes "¥" (formatAmount this "¥1,000,000 - ¥5,000,000" "JPY") = true.
Proof.
  split; reflexivity.
Qed.

(** C4: [formatDeadline] follows four rules in order.  A rolling deadline
    is rendered as the rolling label whatever its other fields; otherwise a
    deadline with a [nextDeadline] as the next-deadline label of that date;
    otherwise one with both [start] and [end] as the range label; otherwise
    (no [start], or no [end]) as the fallback.  The four renderings are
    different strings two by two, and the result does not depend on the
    scraper, so not on its reference time. *)
Theorem formatDeadline_priority (toLocaleDateString_ja : Date -> string) :
  let render := formatDeadline toLocaleDateString_ja in
  let rolling := "常時募集中" in
  let next := fun n => "次回締切: " ++ toLocaleDateString_ja n in
  let range := fun s e => "募集期間: " ++ toLocaleDateString_ja s ++ " - "
                                       ++ toLocaleDateString_ja e in
  let fallback := "募集期間は公式サイトでご確認ください" in
  (forall this s e n c, render this (mkGrantDeadline s e true n c) = rolling)
  /\ (forall this s e n c,
         render this (mkGrantDeadline s e false (Some n) c) = next n)
  /\ (forall this s e c,
         render this (mkGrantDeadline (Some s) (Some e) false None c)
         = range s e)
  /\ (forall this e c,
         render this (mkGrantDeadline None e false None c) = fallback)
  /\ (forall this s c,
         render this (mkGrantDeadline s None false None c) = fallback)
  /\ (forall this this' d, render this d = render this' d)
  /\ (forall n s e,
         String.eqb rolling (next n) = false
         /\ String.eqb rolling (range s e) = false
         /\ String.eqb rolling fallback = false
         /\ String.eqb (next n) (range s e) = false
         /\ String.eqb (next n) fallback = false
         /\ String.eqb (range s e) fallback = false).
Proof.
  cbv zeta. repeat split.
  intros this [s |] c; reflexivity.
Qed.

Example formatDeadline_rolling_with_window :
  formatDeadline (toLocaleDateString_jaJP 0) (initialized (mkDate 0))
    {| start := Some (Date_of_iso 2024 1 15);
       end_ := Some (Date_of_iso 2024 2 28);
       isRolling := true;
       nextDeadline := None;
       cycle := None |}
  = "常時募集中".
Proof. reflexivity. Qed.

Example formatDeadline_range :
  formatDeadline (toLocaleDateString_jaJP 0) (initialized (mkDate 0))
    {| start := Some (Date_of_iso 2024 1 15);
       end_ := Some (Date_of_iso 2024 2 28);
       isRolling := false;
       nextDeadline := None;
       cycle := None |}
  = "募集期間: 2024/1/15 - 2024/2/28".
Proof. reflexivity. Qed.

(** ** The printed block of [main] *)

Lemma bind_console_log {A : Type} (line : string) (k : M A) (w : World) :
  (console_log line ;;; k) w = k (log_lines [line] w).
Proof. reflexivity. Qed.

Lemma log_lines_twice (xs ys : list string) (w : World) :
  log_lines ys (log_lines xs w) = log_lines (xs ++ ys) w.
Proof.
  unfold log_lines. cbn [wall reads stdout stderr launch closedBrowsers].
  now rewrite <- app_assoc.
Qed.

Lemma printed_log_lines {A : Type} (m : M A) (w : World) (a : A)
      (lines : list string) :
  m w = (a, log_lines lines w) -> printed m w = lines.
Proof.
  intros Hrun. unfold printed. rewrite Hrun. apply skipn_length_app.
Qed.

(** The block of eleven lines [main] prints for one record. *)
Lemma printGrant_logs (toLocaleDateString_ja : Date -> string)
      (scraper : GrantScraper) (grant : GrantInfo) (index : Z) (w : World) :
  printGrant toLocaleDateString_ja scraper grant index w
  = (tt,
     log_lines
       [ newline ++ "=== 助成金 " ++ Number_toString (index + 1) ++ " ===";
         "タイトル: " ++ title grant;
         "団体: " ++ organization grant;
         "助成額: " ++ amount grant ++ " (" ++ Currency_code (currency grant)
                    ++ ")";
         "募集状況: " ++ match status grant with
                         | active => "募集中"
                         | _ => "募集予定"
                         end;
         "締切: " ++ formatDeadline toLocaleDateString_ja scraper
                                    (deadline grant);
         "カテゴリー: " ++ join ", " (category grant);
         "応募資格: " ++ eligibility grant;
         "前払い: " ++ (if upfrontPayment grant then "あり" else "なし");
         "説明: " ++ description grant;
         "詳細: " ++ url grant ]
       w).
Proof.
  unfold printGrant.
  repeat (rewrite bind_console_log; rewrite ?log_lines_twice).
  unfold console_log, log_lines; cbn [wall reads stdout stderr launch
                                       closedBrowsers app].
  now rewrite <- app_assoc.
Qed.

(** C8: the fifth line [main] prints for a record is the status line; it
    carries the accepting-applications label for the status [active] and the
    upcoming label for each of the two other statuses. *)
Theorem printGrant_status_label (toLocaleDateString_ja : Date -> string)
        (scraper : GrantScraper) (grant : GrantInfo) (index : Z) (w : World) :
  nth_error (printed (printGrant toLocaleDateString_ja scraper grant index) w)
            4
  = Some ("募集状況: " ++ match status grant with
                          | active => "募集中"
                          | upcoming => "募集予定"
                          | closed => "募集予定"
                          end).
Proof.
  rewrite (printed_log_lines _ _ _ _
             (printGrant_logs toLocaleDateString_ja scraper grant index w)).
  destruct (status grant); reflexivity.
Qed.

(** ** A run of [main] *)

Lemma logs_only_refl (w : World) : logs_only 0 w w.
Proof.
  exists []. split; [| reflexivity]. rewrite app_nil_r. now destruct w.
Qed.

Lemma logs_only_trans (n m : nat) (w1 w2 w3 : World) :
  logs_only n w1 w2 -> logs_only m w2 w3 -> logs_only (n + m) w1 w3.
Proof.
  intros [xs [H12 Hn]] [ys [H23 Hm]].
  exists (xs ++ ys)%list. split.
  - rewrite H23. f_equal; rewrite H12; cbn [wall stdout stderr launch
                                             closedBrowsers]; trivial.
    now rewrite <- app_assoc.
  - rewrite length_app. lia.
Qed.

Lemma logs_only_tick (w : World) : logs_only 0 w (snd (new_Date_now w)).
Proof.
  exists []. split; [| reflexivity]. cbn. now rewrite app_nil_r.
Qed.

Lemma logs_only_log_lines (lines : list string) (w : World) :
  logs_only (List.length lines) w (log_lines lines w).
Proof.
  exists lines. split; reflexivity.
Qed.

Lemma bind_run {A B : Type} (m : M A) (k : A -> M B) (w : World) :
  bind m k w = k (fst (m w)) (snd (m w)).
Proof.
  unfold bind. now destruct (m w).
Qed.

Lemma scrapeGrants_logs_nothing (this : GrantScraper) (w : World) :
  logs_only 0 w (snd (scrapeGrants this w)).
Proof.
  unfold scrapeGrants. destruct (browser this); [| apply logs_only_refl].
  unfold bind, ret, new_Date_now, push.
  destruct (Date_le _ _);
    cbn [fst snd wall reads stdout stderr launch closedBrowsers];
    exists []; (split; [| reflexivity]); now rewrite app_nil_r.
Qed.

Lemma getAllGrants_logs_count (this : GrantScraper) (w : World) :
  logs_only 1 w (snd (getAllGrants this w))
  /\ fst (getAllGrants this w) = fst (scrapeGrants this w).
Proof.
  unfold getAllGrants. rewrite bind_run, bind_console_log. split.
  - apply (logs_only_trans 0 1 _ _ _ (scrapeGrants_logs_nothing this w)).
    apply (logs_only_log_lines [_]).
  - reflexivity.
Qed.

(** [forEach] over the records prints eleven lines per record. *)
Lemma forEach_printGrant_logs (toLocaleDateString_ja : Date -> string)
      (scraper : GrantScraper) (grants : list GrantInfo) :
  forall (i : Z) (w : World),
    logs_only (11 * List.length grants) w
      (snd (forEach_from (printGrant toLocaleDateString_ja scraper) i grants
                         w)).
Proof.
  induction grants as [| g grants IH]; intros i w.
  - apply logs_only_refl.
  - cbn [forEach_from]. rewrite bind_run, printGrant_logs. cbn [fst snd].
    replace (11 * List.length (g :: grants))%nat
      with (11 + 11 * List.length grants)%nat by (cbn [List.length]; lia).
    eapply logs_only_trans; [| apply IH].
    apply (logs_only_log_lines [_; _; _; _; _; _; _; _; _; _; _]).
Qed.

Lemma logs_only_launch (n : nat) (w w' : World) :
  logs_only n w w' -> launch w' = launch w.
Proof.
  intros [lines [Hw' _]]. now rewrite Hw'.
Qed.

Lemma new_GrantScraper_logs_nothing
      (toLocaleString_enUS_Tokyo : Date -> string)
      (Date_parse : string -> Date) (w : World) :
  logs_only 0 w
    (snd (new_GrantScraper toLocaleString_enUS_Tokyo Date_parse w)).
Proof.
  unfold new_GrantScraper. rewrite bind_run. apply logs_only_tick.
Qed.

Lemma initialize_resolved (this : GrantScraper) (w : World) (b : Browser) :
  launch w = Some b ->
  initialize this w = (Some (mkGrantScraper (Some b) (currentDate this)), w).
Proof.
  intros Hresolves. unfold initialize. now rewrite Hresolves.
Qed.

Lemma scrapeGrants_count (this : GrantScraper) (b : Browser) (w : World) :
  browser this = Some b ->
  let n := List.length (fst (scrapeGrants this w)) in
  (n = 3 \/ n = 2)%nat.
Proof.
  intros Hb. cbv zeta.
  rewrite <- (length_map title).
  change (map title (fst (scrapeGrants this w)))
    with (titles (result (scrapeGrants this) w)).
  rewrite (scrapeGrants_titles this b w Hb).
  destruct (Date_le _ _); [left | right]; reflexivity.
Qed.

(** When [puppeteer.launch] resolves, [main] prints the time, the count
    and one block of eleven lines per record, logs no error and closes the
    browser it launched. *)
Lemma main_launch_resolved
      (toLocaleDateString_ja toLocaleString_ja toLocaleString_enUS_Tokyo
         : Date -> string)
      (Date_parse : string -> Date) (w : World) (b : Browser) :
  launch w = Some b ->
  exists (w1 : World) (n : nat),
    logs_only (2 + 11 * n) w w1
    /\ (n = 3 \/ n = 2)%nat
    /\ snd (main toLocaleDateString_ja toLocaleString_ja
                 toLocaleString_enUS_Tokyo Date_parse w)
       = snd (browser_close b w1).
Proof.
  intros Hresolves. unfold main. rewrite bind_run.
  pose proof (new_GrantScraper_logs_nothing toLocaleString_enUS_Tokyo
                Date_parse w) as Hnew.
  set (scraper := fst (new_GrantScraper _ _ w)) in *.
  set (w0 := snd (new_GrantScraper _ _ w)) in *.
  assert (Hlaunch : launch w0 = Some b)
    by (now rewrite (logs_only_launch _ _ _ Hnew)).
  rewrite bind_run, (initialize_resolved scraper w0 b Hlaunch).
  cbn [fst snd]. rewrite bind_run, bind_console_log, bind_run, bind_run.
  cbn [close browser].
  set (this := mkGrantScraper (Some b) (currentDate scraper)).
  set (w2 := log_lines _ (snd (new_Date_now w0))).
  destruct (getAllGrants_logs_count this w2) as [Hcount Hgrants].
  exists (snd (forEach (printGrant toLocaleDateString_ja this)
                       (fst (getAllGrants this w2))
                       (snd (getAllGrants this w2)))),
         (List.length (fst (getAllGrants this w2))).
  split; [| split; [| reflexivity]].
  - replace (2 + 11 * List.length (fst (getAllGrants this w2)))%nat
      with (0 + (0 + (1 + (1 + 11 * List.length
                                      (fst (getAllGrants this w2))))))%nat
      by lia.
    apply (logs_only_trans _ _ w w0); [exact Hnew |].
    apply (logs_only_trans _ _ w0 (snd (new_Date_now w0)));
      [apply logs_only_tick |].
    apply (logs_only_trans _ _ _ w2); [apply (logs_only_log_lines [_]) |].
    apply (logs_only_trans _ _ _ (snd (getAllGrants this w2)));
      [exact Hcount |].
    apply forEach_printGrant_logs.
  - rewrite Hgrants. apply (scrapeGrants_count this b w2). reflexivity.
Qed.

(** When [puppeteer.launch] rejects, [main] prints nothing on the standard
    output, logs the error (the error value itself is not modelled) and
    closes no browser. *)
Lemma main_launch_rejected
      (toLocaleDateString_ja toLocaleString_ja toLocaleString_enUS_Tokyo
         : Date -> string)
      (Date_parse : string -> Date) (w : World) :
  launch w = None ->
  let w' := snd (main toLocaleDateString_ja toLocaleString_ja
                      toLocaleString_enUS_Tokyo Date_parse w) in
  stdout w' = stdout w
  /\ stderr w' = (stderr w ++ [ "Error:" ])%list
  /\ closedBrowsers w' = closedBrowsers w.
Proof.
  intros Hrejects. cbv zeta.
  unfold main, new_GrantScraper, initialize, bind, ret, new_Date_now.
  cbn [launch]. rewrite Hrejects. repeat split.
Qed.

(** ** More on [formatAmount] *)

Lemma startsWith_app (p s t : string) :
  startsWith p s = true -> startsWith p (s ++ t) = true.
Proof.
  revert s. induction p as [| a p IH]; intros s Hs; [reflexivity |].
  destruct s as [| b s]; [discriminate Hs |].
  cbn [append startsWith] in *.
  apply andb_true_iff in Hs. destruct Hs as [Hab Hs].
  now rewrite Hab, (IH s Hs).
Qed.

(** A half-width yen sign that does not start at the head of a non-empty
    [pre] does not start there either when [pre] is followed by a byte other
    than the second byte of the sign. *)
Lemma no_yen_across (a c : ascii) (pre post : string) :
  startsWith "¥" (String a pre) = false ->
  Ascii.eqb "165" c = false ->
  startsWith "¥" (String a pre ++ String c post) = false.
Proof.
  intros Hpre Hc.
  destruct pre as [| b pre]; cbn [append startsWith] in *.
  - rewrite Hc. apply andb_false_r.
  - exact Hpre.
Qed.

(** [replace] rewrites the first half-width yen sign and nothing else. *)
Lemma replace_first_yen (r pre post : string) :
  includes "¥" pre = false ->
  replace "¥" r (pre ++ "¥" ++ post) = pre ++ r ++ post.
Proof.
  induction pre as [| a pre IH]; intros Hpre.
  - exact (replace_at_head "¥" r post).
  - cbn [includes] in Hpre. apply orb_false_iff in Hpre.
    destruct Hpre as [Hhead Htail].
    change (String a pre ++ "¥" ++ post)
      with (String a (pre ++ "¥" ++ post)).
    cbn [replace].
    change (String a (pre ++ "¥" ++ post))
      with (String a pre ++ String "194" (String "165" post)).
    rewrite (no_yen_across a "194" pre _ Hhead eq_refl).
    change (String a pre ++ String "194" (String "165" post))
      with (String a (pre ++ "¥" ++ post)).
    cbn [append]. f_equal. exact (IH Htail).
Qed.

Lemma includes_after_full_width_yen (pre post : string) :
  includes "¥" pre = false ->
  includes "¥" post = false ->
  includes "¥" (pre ++ "￥" ++ post) = false.
Proof.
  intros Hpre Hpost. induction pre as [| a pre IH].
  - cbn. exact Hpost.
  - cbn [includes] in Hpre. apply orb_false_iff in Hpre.
    destruct Hpre as [Hhead Htail].
    change (String a pre ++ "￥" ++ post)
      with (String a (pre ++ "￥" ++ post)).
    cbn [includes]. rewrite (IH Htail), orb_false_r.
    change (String a (pre ++ "￥" ++ post))
      with (String a pre ++ String "239" (String "191" (String "165" post))).
    exact (no_yen_across a "239" pre _ Hhead eq_refl).
Qed.

(** An amount that includes a half-width yen sign splits at the first one. *)
Lemma includes_yen_split (s : string) :
  includes "¥" s = true ->
  exists pre post : string,
    s = pre ++ "¥" ++ post /\ includes "¥" pre = false.
Proof.
  induction s as [| a s IH]; intros Hs; [discriminate Hs |].
  destruct (startsWith "¥" (String a s)) eqn:Hhead.
  - exists "". destruct s as [| b s]; cbn [startsWith] in Hhead.
    + now rewrite andb_false_r in Hhead.
    + apply andb_true_iff in Hhead. destruct Hhead as [Ha Hb].
      apply andb_true_iff in Hb. destruct Hb as [Hb _].
      apply Ascii.eqb_eq in Ha, Hb. subst a b.
      exists s. split; reflexivity.
  - cbn [includes] in Hs. rewrite Hhead in Hs. cbn [orb] in Hs.
    destruct (IH Hs) as [pre [post [Heq Hpre]]].
    exists (String a pre), post. split; [cbn [append]; now f_equal |].
    cbn [includes]. rewrite Hpre, orb_false_r.
    destruct (startsWith "¥" (String a pre)) eqn:Hpre_head; [| reflexivity].
    apply (startsWith_app _ _ ("¥" ++ post)) in Hpre_head.
    change (startsWith "¥" (String a (pre ++ "¥" ++ post)) = true)
      in Hpre_head.
    rewrite <- Heq in Hpre_head. congruence.
Qed.

Lemma eqb_app_same_prefix (pre x y : string) :
  String.eqb (pre ++ x) (pre ++ y) = String.eqb x y.
Proof.
  induction pre as [| a pre IH]; [reflexivity |].
  cbn [append String.eqb]. now rewrite Ascii.eqb_refl.
Qed.

(** X4: with JPY, [formatAmount] turns the first half-width yen sign of
    the amount into a full-width one and returns the text before and after
    it, later yen signs included, as it is. *)
Theorem formatAmount_JPY_first_yen_only (this : GrantScraper)
        (pre post : string) :
  includes "¥" pre = false ->
  formatAmount this (pre ++ "¥" ++ post) "JPY" = pre ++ "￥" ++ post.
Proof.
  intros Hpre. unfold formatAmount. cbn [String.eqb Ascii.eqb Bool.eqb].
  now apply replace_first_yen.
Qed.

Lemma formatAmount_JPY_first_yen_only_witness :
  includes "¥" "max " = false
  /\ formatAmount (initialized (mkDate 0)) ("max " ++ "¥" ++ "500 - ¥900") "JPY"
     = "max " ++ "￥" ++ "500 - ¥900".
Proof.
  split; [reflexivity |].
  apply (formatAmount_JPY_first_yen_only (initialized (mkDate 0)) "max "
                                          "500 - ¥900").
  reflexivity.
Defined.

(** X5: with JPY, the result of [formatAmount] on an amount that holds one
    half-width yen sign holds none. *)
Theorem formatAmount_JPY_single_yen_normalized (this : GrantScraper)
        (pre post : string) :
  includes "¥" pre = false ->
  includes "¥" post = false ->
  includes "¥" (formatAmount this (pre ++ "¥" ++ post) "JPY") = false.
Proof.
  intros Hpre Hpost. unfold formatAmount. cbn [String.eqb Ascii.eqb Bool.eqb].
  rewrite (replace_first_yen _ _ _ Hpre).
  now apply includes_after_full_width_yen.
Qed.

Lemma formatAmount_JPY_single_yen_normalized_witness :
  includes "¥" "" = false
  /\ includes "¥" "500,000" = false
  /\ includes "¥" (formatAmount (initialized (mkDate 0))
                                ("" ++ "¥" ++ "500,000") "JPY") = false.
Proof.
  split; [reflexivity |]. split; [reflexivity |].
  apply (formatAmount_JPY_single_yen_normalized (initialized (mkDate 0)) ""
                                                 "500,000");
    reflexivity.
Defined.

(** X6: [formatAmount] returns the amount as it is exactly when the
    currency is not JPY or the amount holds no half-width yen sign. *)
Theorem formatAmount_unchanged_iff (this : GrantScraper)
        (amount currency : string) :
  String.eqb (formatAmount this amount currency) amount
  = negb (String.eqb currency "JPY" && includes "¥" amount).
Proof.
  unfold formatAmount.
  destruct (String.eqb currency "JPY"); [| now rewrite String.eqb_refl].
  cbn [andb]. destruct (includes "¥" amount) eqn:Hyen.
  - destruct (includes_yen_split amount Hyen) as [pre [post [-> Hpre]]].
    rewrite (replace_first_yen _ _ _ Hpre), eqb_app_same_prefix.
    reflexivity.
  - rewrite (replace_without_match _ _ _ Hyen). now rewrite String.eqb_refl.
Qed.

(** ** More on [scrapeGrants] and [getAllGrants] *)

(** X1: on an initialized scraper the titles listed are the three of the
    source, in its order, while the reference time is at most
    2025-01-15T00:00:00Z (time value 1736899200000), the start of the Japan
    Foundation window playing no part, and the two others after it (and
    when the reference time is an Invalid Date). *)
Theorem scrapeGrants_visible_titles (this : GrantScraper) (b : Browser)
        (w : World) :
  browser this = Some b ->
  titles (result (scrapeGrants this) w)
  = if match getTime (currentDate this) with
       | Some t => t <=? 1736899200000
       | None => false
       end
    then [ "Pollination Project Daily Grant";
           "Japan Foundation アートプラットフォーム助成";
           "SARAI プロジェクト助成金" ]
    else [ "Pollination Project Daily Grant"; "SARAI プロジェクト助成金" ].
Proof.
  intros Hb. run_scrapeGrants. rewrite Hb. run_scrapeGrants.
  replace (match getTime (currentDate this) with
           | Some t => t <=? 1736899200000
           | None => false
           end)
    with (Date_le (currentDate this) (Date_of_iso 2025 1 15))
    by (unfold Date_le; destruct (getTime (currentDate this)); reflexivity).
  split_on_jfEnd this; reflexivity.
Qed.

(** One millisecond into 2025-01-15 (UTC) the Japan Foundation record is
    already left out. *)
Lemma scrapeGrants_visible_titles_witness :
  browser (initialized (mkDate 1736899200001)) = Some (Chromium 0)
  /\ titles (result (scrapeGrants (initialized (mkDate 1736899200001)))
                    (world_at 0))
     = if match getTime (currentDate (initialized (mkDate 1736899200001)))
          with
          | Some t => t <=? 1736899200000
          | None => false
          end
       then [ "Pollination Project Daily Grant";
              "Japan Foundation アートプラットフォーム助成";
              "SARAI プロジェクト助成金" ]
       else [ "Pollination Project Daily Grant"; "SARAI プロジェクト助成金" ].
Proof.
  split; [reflexivity |].
  apply (scrapeGrants_visible_titles (initialized (mkDate 1736899200001))
                                      (Chromium 0) (world_at 0)).
  reflexivity.
Defined.

(** What [scrapeGrants] does to the world: one reading of the clock per
    record returned. *)
Lemma scrapeGrants_world (this : GrantScraper) (w : World) :
  snd (scrapeGrants this w)
  = mkWorld (wall w)
            (reads w + List.length (fst (scrapeGrants this w)))
            (stdout w) (stderr w) (launch w) (closedBrowsers w).
Proof.
  unfold scrapeGrants.
  destruct (browser this);
    [| cbn [ret fst snd List.length]; rewrite Nat.add_0_r; now destruct w].
  unfold bind, ret, new_Date_now, push.
  destruct (Date_le _ _);
    cbn [fst snd app wall reads stdout stderr launch closedBrowsers
         List.length];
    f_equal; lia.
Qed.

(** X2: [scrapeGrants] reads the wall clock once per record it returns, in
    the order of the records: the [lastUpdated] stamps are the successive
    readings, and the call leaves the console, the launcher and the closed
    browsers as they were. *)
Theorem scrapeGrants_stamps_follow_clock (this : GrantScraper) (w : World) :
  let out := result (scrapeGrants this) w in
  map lastUpdated out
  = map (fun i => mkDate (wall w (reads w + i))) (seq 0 (List.length out))
  /\ snd (scrapeGrants this w)
     = mkWorld (wall w) (reads w + List.length out) (stdout w) (stderr w)
               (launch w) (closedBrowsers w).
Proof.
  cbv zeta. split; [| apply scrapeGrants_world].
  run_scrapeGrants. destruct (browser this); [| reflexivity].
  run_scrapeGrants.
  split_on_jfEnd this; cbn [map seq lastUpdated List.length];
    repeat f_equal; lia.
Qed.

(** X3: [getAllGrants] returns the list [scrapeGrants] returns, and logs
    one line, the number of its records; nothing else is written. *)
Theorem getAllGrants_logs_length (this : GrantScraper) (w : World) :
  result (getAllGrants this) w = result (scrapeGrants this) w
  /\ snd (getAllGrants this w)
     = log_lines [ "取得した助成金数: "
                   ++ Number_toString
                        (Z.of_nat (List.length (result (scrapeGrants this) w))) ]
                 (snd (scrapeGrants this w))
  /\ printed (getAllGrants this) w
     = [ "取得した助成金数: "
         ++ Number_toString
              (Z.of_nat (List.length (result (scrapeGrants this) w))) ].
Proof.
  unfold result, printed, getAllGrants.
  rewrite bind_run, bind_console_log. cbn [ret fst snd].
  split; [reflexivity | split; [reflexivity |]].
  rewrite scrapeGrants_world.
  cbn [log_lines stdout wall reads stderr launch closedBrowsers].
  apply skipn_length_app.
Qed.

(** ** More on the printing of [main] *)

Lemma forEach_from_printGrant_run (toLocaleDateString_ja : Date -> string)
      (scraper : GrantScraper) (grants : list GrantInfo) :
  forall (i : Z) (w : World),
    forEach_from (printGrant toLocaleDateString_ja scraper) i grants w
    = (tt, log_lines (blocks_from toLocaleDateString_ja scraper i grants) w).
Proof.
  induction grants as [| g grants IH]; intros i w.
  - cbn [forEach_from blocks_from]. unfold ret, log_lines.
    rewrite app_nil_r. now destruct w.
  - cbn [forEach_from blocks_from].
    rewrite bind_run, printGrant_logs. cbn [fst snd].
    rewrite IH, log_lines_twice. reflexivity.
Qed.

Lemma blocks_from_length (toLocaleDateString_ja : Date -> string)
      (scraper : GrantScraper) (grants : list GrantInfo) (i : Z) :
  List.length (blocks_from toLocaleDateString_ja scraper i grants)
  = (11 * List.length grants)%nat.
Proof.
  revert i. induction grants as [| g grants IH]; intros i; [reflexivity |].
  cbn [blocks_from]. rewrite length_app, IH. cbn [grant_block List.length].
  lia.
Qed.

Lemma blocks_from_nth (toLocaleDateString_ja : Date -> string)
      (scraper : GrantScraper) (grants : list GrantInfo) :
  forall (i : Z) (k : nat) (g : GrantInfo),
    nth_error grants k = Some g ->
    firstn 11 (skipn (11 * k)
                     (blocks_from toLocaleDateString_ja scraper i grants))
    = grant_block toLocaleDateString_ja scraper g (i + Z.of_nat k).
Proof.
  induction grants as [| g0 grants IH]; intros i k g Hk.
  - destruct k; discriminate Hk.
  - destruct k as [| k].
    + injection Hk as ->. rewrite Z.add_0_r. reflexivity.
    + cbn [nth_error] in Hk.
      replace (11 * S k)%nat with (11 + 11 * k)%nat by lia.
      replace (i + Z.of_nat (S k)) with (i + 1 + Z.of_nat k) by lia.
      rewrite <- (IH (i + 1) k g Hk). reflexivity.
Qed.

(** X7: the loop of [main] over the records prints eleven lines per
    record; the block of the record at position [k] (from 0) is lines
    [11 k] to [11 k + 10], and its header carries the number [k + 1]. *)
Theorem forEach_printGrant_blocks (toLocaleDateString_ja : Date -> string)
        (scraper : GrantScraper) (grants : list GrantInfo) (w : World)
        (k : nat) (g : GrantInfo) :
  nth_error grants k = Some g ->
  let out := printed (forEach (printGrant toLocaleDateString_ja scraper)
                              grants) w in
  List.length out = (11 * List.length grants)%nat
  /\ firstn 11 (skipn (11 * k) out)
     = grant_block toLocaleDateString_ja scraper g (Z.of_nat k)
  /\ nth_error out (11 * k)
     = Some (newline ++ "=== 助成金 " ++ Number_toString (Z.of_nat k + 1)
                     ++ " ===").
Proof.
  intros Hk. cbv zeta. unfold forEach.
  rewrite (printed_log_lines _ _ _ _
             (forEach_from_printGrant_run toLocaleDateString_ja scraper
                                          grants 0 w)).
  split; [apply blocks_from_length |].
  pose proof (blocks_from_nth toLocaleDateString_ja scraper grants 0 k g Hk)
    as Hblock.
  rewrite Z.add_0_l in Hblock. split; [exact Hblock |].
  rewrite <- (Nat.add_0_r (11 * k)), <- nth_error_skipn.
  transitivity
    (nth_error
       (firstn 11 (skipn (11 * k)
                         (blocks_from toLocaleDateString_ja scraper 0 grants)))
       0).
  - now rewrite nth_error_firstn.
  - now rewrite Hblock.
Qed.

Lemma scrapeGrants_restamp (this : GrantScraper) (w1 w2 : World)
      (stamp : Date) :
  map (restamp stamp) (fst (scrapeGrants this w1))
  = map (restamp stamp) (fst (scrapeGrants this w2)).
Proof.
  unfold scrapeGrants. destruct (browser this); [| reflexivity].
  unfold bind, ret, new_Date_now, push.
  destruct (Date_le _ _); reflexivity.
Qed.

Lemma blocks_from_restamp (toLocaleDateString_ja : Date -> string)
      (scraper : GrantScraper) (stamp : Date) (grants : list GrantInfo) :
  forall i : Z,
    blocks_from toLocaleDateString_ja scraper i (map (restamp stamp) grants)
    = blocks_from toLocaleDateString_ja scraper i grants.
Proof.
  induction grants as [| g grants IH]; intros i; [reflexivity |].
  cbn [map blocks_from]. now rewrite IH.
Qed.

(** The lines printed for the records of [scrapeGrants] do not depend on
    the world the records were produced in. *)
Lemma blocks_of_scrapeGrants (toLocaleDateString_ja : Date -> string)
      (scraper this : GrantScraper) (w1 w2 : World) (i : Z) :
  blocks_from toLocaleDateString_ja scraper i (fst (scrapeGrants this w1))
  = blocks_from toLocaleDateString_ja scraper i (fst (scrapeGrants this w2))
  /\ List.length (fst (scrapeGrants this w1))
     = List.length (fst (scrapeGrants this w2)).
Proof.
  split.
  - rewrite <- (blocks_from_restamp _ _ (mkDate 0) (fst (scrapeGrants this w1))),
            <- (blocks_from_restamp _ _ (mkDate 0) (fst (scrapeGrants this w2))).
    now rewrite (scrapeGrants_restamp this w1 w2).
  - rewrite <- (length_map (restamp (mkDate 0)) (fst (scrapeGrants this w1))),
            <- (length_map (restamp (mkDate 0)) (fst (scrapeGrants this w2))).
    now rewrite (scrapeGrants_restamp this w1 w2).
Qed.

Lemma getAllGrants_run (this : GrantScraper) (w : World) :
  getAllGrants this w
  = (fst (scrapeGrants this w),
     log_lines [ "取得した助成金数: "
                 ++ Number_toString
                      (Z.of_nat (List.length (fst (scrapeGrants this w)))) ]
               (snd (scrapeGrants this w))).
Proof.
  unfold getAllGrants. now rewrite bind_run, bind_console_log.
Qed.

(** The run of [main] when [puppeteer.launch] resolves to [b]. *)
Lemma main_run
      (toLocaleDateString_ja toLocaleString_ja toLocaleString_enUS_Tokyo
         : Date -> string)
      (Date_parse : string -> Date)
      (wl : nat -> Z) (rd : nat) (out err : list string)
      (cl : list Browser) (b : Browser) :
  let scraper :=
    mkGrantScraper (Some b)
                   (Date_parse (toLocaleString_enUS_Tokyo (mkDate (wl rd)))) in
  let time_line :=
    newline ++ "現在の日時: " ++ toLocaleString_ja (mkDate (wl (S rd))) in
  let w2 := mkWorld wl (S (S rd)) (out ++ [ time_line ]) err (Some b) cl in
  let grants := fst (scrapeGrants scraper w2) in
  let count_line :=
    "取得した助成金数: " ++ Number_toString (Z.of_nat (List.length grants)) in
  main toLocaleDateString_ja toLocaleString_ja toLocaleString_enUS_Tokyo
       Date_parse (mkWorld wl rd out err (Some b) cl)
  = (tt,
     mkWorld wl (S (S rd) + List.length grants)
             (((out ++ [ time_line ]) ++ [ count_line ])
              ++ blocks_from toLocaleDateString_ja scraper 0 grants)
             err (Some b) (cl ++ [ b ])).
Proof.
  cbv zeta. unfold main, new_GrantScraper.
  rewrite !bind_run. cbn [new_Date_now ret fst snd wall reads].
  rewrite (initialize_resolved _ (mkWorld wl (S rd) out err (Some b) cl) b
                               eq_refl).
  cbn [fst snd currentDate stdout stderr launch closedBrowsers].
  rewrite bind_run. cbn [new_Date_now fst snd wall reads stdout stderr launch
                         closedBrowsers].
  rewrite bind_console_log.
  cbn [log_lines wall reads stdout stderr launch closedBrowsers].
  rewrite bind_run, getAllGrants_run. cbn [fst snd].
  rewrite scrapeGrants_world.
  cbn [log_lines wall reads stdout stderr launch closedBrowsers].
  rewrite bind_run. unfold forEach. rewrite forEach_from_printGrant_run.
  cbn [fst snd close browser browser_close log_lines wall reads stdout stderr
       launch closedBrowsers].
  reflexivity.
Qed.

(** X8: when [puppeteer.launch] resolves to a browser, [main] prints the
    time of the second reading of the clock, then the number of records,
    then one block per record of [scrapeGrants] at the reference time the
    constructor derived from the first reading; it logs no error, closes
    that browser, and reads the clock twice plus once per record. *)
Theorem main_prints_time_count_blocks
        (toLocaleDateString_ja toLocaleString_ja toLocaleString_enUS_Tokyo
           : Date -> string)
        (Date_parse : string -> Date) (w : World) (b : Browser) :
  launch w = Some b ->
  let scraper :=
    mkGrantScraper
      (Some b)
      (Date_parse (toLocaleString_enUS_Tokyo (mkDate (wall w (reads w))))) in
  let grants := result (scrapeGrants scraper) w in
  let w' := snd (main toLocaleDateString_ja toLocaleString_ja
                      toLocaleString_enUS_Tokyo Date_parse w) in
  let time_line :=
    newline ++ "現在の日時: "
            ++ toLocaleString_ja (mkDate (wall w (S (reads w)))) in
  let count_line :=
    "取得した助成金数: " ++ Number_toString (Z.of_nat (List.length grants)) in
  stdout w'
  = (stdout w ++ [ time_line; count_line ]
              ++ blocks_from toLocaleDateString_ja scraper 0 grants)%list
  /\ stderr w' = stderr w
  /\ closedBrowsers w' = (closedBrowsers w ++ [ b ])%list
  /\ reads w' = (reads w + 2 + List.length grants)%nat.
Proof.
  destruct w as [wl rd out err ln cl]. cbn [launch wall reads stdout stderr
                                             closedBrowsers].
  intros ->. cbv zeta. unfold result. rewrite main_run.
  cbn [snd wall reads stdout stderr launch closedBrowsers].
  set (scraper := mkGrantScraper (Some b) _).
  set (w2 := mkWorld wl (S (S rd)) _ err (Some b) cl).
  destruct (blocks_of_scrapeGrants
              toLocaleDateString_ja scraper scraper w2
              (mkWorld wl rd out err (Some b) cl) 0) as [Hblocks Hlength].
  rewrite Hblocks, Hlength, <- !app_assoc.
  repeat split. lia.
Qed.

Lemma forEach_printGrant_blocks_witness :
  nth_error [ sample_grant; sample_grant ] 1 = Some sample_grant
  /\ (let out := printed (forEach (printGrant (toLocaleDateString_jaJP 0)
                                              (initialized (mkDate 0)))
                                  [ sample_grant; sample_grant ])
                         (world_at 0) in
      List.length out = (11 * List.length [ sample_grant; sample_grant ])%nat
      /\ firstn 11 (skipn (11 * 1) out)
         = grant_block (toLocaleDateString_jaJP 0) (initialized (mkDate 0))
                       sample_grant (Z.of_nat 1)
      /\ nth_error out (11 * 1)
         = Some (newline ++ "=== 助成金 " ++ Number_toString (Z.of_nat 1 + 1)
                         ++ " ===")).
Proof.
  split; [reflexivity |].
  apply (forEach_printGrant_blocks
           (toLocaleDateString_jaJP 0) (initialized (mkDate 0))
           [ sample_grant; sample_grant ] (world_at 0) 1 sample_grant).
  reflexivity.
Defined.

Example sample_block_lines :
  firstn 5 (skipn 11 (printed (forEach (printGrant (toLocaleDateString_jaJP 0)
                                                   (initialized (mkDate 0)))
                                       [ sample_grant; sample_grant ])
                              (world_at 0)))
  = [ newline ++ "=== 助成金 2 ===";
      "タイトル: Sample";
      "団体: Sample Org";
      "助成額: $10 (EUR)";
      "募集状況: 募集予定" ].
Proof. reflexivity. Qed.

Lemma main_prints_time_count_blocks_witness :
  launch (world_at 0) = Some (Chromium 0)
  /\ (let scraper :=
        mkGrantScraper
          (Some (Chromium 0))
          ((fun _ : string => Date_of_iso 2024 12 15)
             (toLocaleDateString_jaJP 32400000
                (mkDate (wall (world_at 0) (reads (world_at 0)))))) in
      let grants := result (scrapeGrants scraper) (world_at 0) in
      let w' := snd (main (toLocaleDateString_jaJP 32400000)
                          (toLocaleDateString_jaJP 32400000)
                          (toLocaleDateString_jaJP 32400000)
                          (fun _ : string => Date_of_iso 2024 12 15)
                          (world_at 0)) in
      let time_line :=
        newline ++ "現在の日時: "
                ++ toLocaleDateString_jaJP 32400000
                     (mkDate (wall (world_at 0) (S (reads (world_at 0))))) in
      let count_line :=
        "取得した助成金数: "
          ++ Number_toString (Z.of_nat (List.length grants)) in
      stdout w'
      = (stdout (world_at 0) ++ [ time_line; count_line ]
           ++ blocks_from (toLocaleDateString_jaJP 32400000) scraper 0
                          grants)%list
      /\ stderr w' = stderr (world_at 0)
      /\ closedBrowsers w'
         = (closedBrowsers (world_at 0) ++ [ Chromium 0 ])%list
      /\ reads w' = (reads (world_at 0) + 2 + List.length grants)%nat).
Proof.
  split; [reflexivity |].
  apply (main_prints_time_count_blocks
           (toLocaleDateString_jaJP 32400000)
           (toLocaleDateString_jaJP 32400000)
           (toLocaleDateString_jaJP 32400000)
           (fun _ : string => Date_of_iso 2024 12 15)
           (world_at 0) (Chromium 0)).
  reflexivity.
Defined.

(** X9: when [puppeteer.launch] rejects, [main] reads the clock once (in
    the constructor), prints nothing on the standard output, logs one error
    line (the error value itself is not modelled) and closes no browser. *)
Theorem main_when_launch_rejects
        (toLocaleDateString_ja toLocaleString_ja toLocaleString_enUS_Tokyo
           : Date -> string)
        (Date_parse : string -> Date) (w : World) :
  launch w = None ->
  snd (main toLocaleDateString_ja toLocaleString_ja
            toLocaleString_enUS_Tokyo Date_parse w)
  = mkWorld (wall w) (S (reads w)) (stdout w) (stderr w ++ [ "Error:" ])
            (launch w) (closedBrowsers w).
Proof.
  intros Hrejects.
  unfold main, new_GrantScraper, initialize, bind, ret, new_Date_now.
  cbn [launch]. rewrite Hrejects. reflexivity.
Qed.

Lemma main_when_launch_rejects_witness :
  launch (mkWorld (fun _ => 0) 0 [] [] None []) = None
  /\ snd (main (toLocaleDateString_jaJP 0) (toLocaleDateString_jaJP 0)
               (toLocaleDateString_jaJP 0)
               (fun _ : string => Date_of_iso 2024 12 15)
               (mkWorld (fun _ => 0) 0 [] [] None []))
     = mkWorld (wall (mkWorld (fun _ => 0) 0 [] [] None []))
               (S (reads (mkWorld (fun _ => 0) 0 [] [] None [])))
               (stdout (mkWorld (fun _ => 0) 0 [] [] None []))
               (stderr (mkWorld (fun _ => 0) 0 [] [] None []) ++ [ "Error:" ])
               (launch (mkWorld (fun _ => 0) 0 [] [] None []))
               (closedBrowsers (mkWorld (fun _ => 0) 0 [] [] None [])).
Proof.
  split; [reflexivity |].
  apply (main_when_launch_rejects
           (toLocaleDateString_jaJP 0) (toLocaleDateString_jaJP 0)
           (toLocaleDateString_jaJP 0)
           (fun _ : string => Date_of_iso 2024 12 15)
           (mkWorld (fun _ => 0) 0 [] [] None [])).
  reflexivity.
Defined.

(** X10: for every record [scrapeGrants] returns, at any reference time,
    the status line [main] prints carries the accepting-applications label
    when the record is rolling and the upcoming label when it is not: the
    label never follows the deadline. *)
Theorem scrapeGrants_status_line_follows_rolling
        (toLocaleDateString_ja : Date -> string)
        (this scraper : GrantScraper) (w w0 : World) (index : Z) :
  Forall (fun g =>
            nth_error (printed (printGrant toLocaleDateString_ja scraper g
                                           index) w0) 4
            = Some ("募集状況: " ++ if isRolling (deadline g)
                                    then "募集中" else "募集予定"))
         (result (scrapeGrants this) w).
Proof.
  apply Forall_forall. intros g Hg.
  rewrite (printed_log_lines _ _ _ _
             (printGrant_logs toLocaleDateString_ja scraper g index w0)).
  cbn [nth_error]. revert g Hg. apply Forall_forall.
  run_scrapeGrants. destruct (browser this); [| constructor].
  run_scrapeGrants. split_on_jfEnd this; repeat constructor.
Qed.

(** X11: after an [initialize] whose launch resolves, the scraper holds
    the browser and the reference time it had, the world is as it was, and
    [scrapeGrants] on it returns two or three records. *)
Theorem initialize_then_scrapeGrants (this : GrantScraper) (w : World)
        (b : Browser) :
  launch w = Some b ->
  exists this' : GrantScraper,
    initialize this w = (Some this', w)
    /\ browser this' = Some b
    /\ currentDate this' = currentDate this
    /\ (2 <= List.length (result (scrapeGrants this') w) <= 3)%nat.
Proof.
  intros Hresolves.
  exists (mkGrantScraper (Some b) (currentDate this)).
  split; [now apply initialize_resolved |].
  split; [reflexivity | split; [reflexivity |]].
  destruct (scrapeGrants_count (mkGrantScraper (Some b) (currentDate this)) b
                               w eq_refl) as [H | H];
    unfold result; rewrite H; lia.
Qed.

Lemma initialize_then_scrapeGrants_witness :
  launch (world_at 0) = Some (Chromium 0)
  /\ exists this' : GrantScraper,
       initialize (mkGrantScraper None (Date_of_iso 2024 12 15)) (world_at 0)
       = (Some this', world_at 0)
       /\ browser this' = Some (Chromium 0)
       /\ currentDate this'
          = currentDate (mkGrantScraper None (Date_of_iso 2024 12 15))
       /\ (2 <= List.length (result (scrapeGrants this') (world_at 0)) <= 3)%nat.
Proof.
  split; [reflexivity |].
  apply (initialize_then_scrapeGrants
           (mkGrantScraper None (Date_of_iso 2024 12 15)) (world_at 0)
           (Chromium 0)).
  reflexivity.
Defined.

